(** * next-care / one-health: the user router

    A shallow embedding of [app/api/api_v1/routers/users.py] and of the
    collaborators its handlers call, with the properties of the login flow,
    of user creation and update, of the profile read and of the paginated
    item listing.

    Python values are modelled as follows: [str] as [string], [int] as [Z]
    (unbounded, as in Python), [Optional[T]] and "an ORM row or [None]" as
    [option T], a dict literal as an association list, a query result as a
    [list].  A handler runs in the monad [M]: it threads the persistence
    store and a chronological record of the calls made to collaborators,
    and it either returns a value or raises a Python exception. *)

From Stdlib Require Import ZArith String List Bool Lia.
Import ListNotations.
Local Open Scope Z_scope.
Local Open Scope string_scope.
Local Open Scope list_scope.

(** ** Data model *)

(** [app.models]: the ORM rows.  Only [doctor.py] of the package is
    available; the attributes given to the other rows are those the
    handlers read. *)
Module models.

(** [Role]: the handlers read [role.name]. *)
Record Role := { name : string }.

(** [UserRole]: the login reads [role_id], [read_user_me] reads
    [role.name]; the resolver looks a row up by [user_id]. *)
Record UserRole := {
  ur_user_id : string;
  role_id : string;
  role : Role
}.

(** [User].  The login reads [user_id] and [password] (the hashed
    secret); [read_user_me] reads [id], [email], [is_active], [full_name],
    [created_at], [updated_at] and the relationship [user_role];
    [update_user_me] writes [phone_number], [full_name] and [email].
    Both [id] and [user_id] are kept, as the handlers read both. *)
Record User := {
  id : string;
  user_id : string;
  email : string;
  phone_number : option string;
  full_name : string;
  password : string;
  is_active : bool;
  created_at : Z;
  updated_at : Z;
  user_role : option UserRole
}.

(** A row of the paginated listing; the listing filters on [status]. *)
Record Item := {
  item_name : string;
  status : Z
}.

(** [Doctor] ([app/models/doctor.py]): a bare record, used by no handler
    of this router. *)
Record Doctor := {
  case_id : string;
  doctor_user_id : string;
  patient_user_id : string;
  insights : string;
  doctor_status : string;
  doctor_created_at : Z;
  doctor_updated_at : Z
}.

End models.

(** [app.schemas]: the request and response bodies. *)
Module schemas.

(** [UserLogin]: [email_or_phone_no], [password], [user_role]. *)
Record UserLogin := {
  email_or_phone_no : string;
  login_password : string;
  login_user_role : string
}.

(** [UserCreate]: the create handler reads [email_id]; [create_user_open]
    builds it from a password, a full name and an optional phone number. *)
Record UserCreate := {
  email_id : string;
  create_password : string;
  create_full_name : string;
  create_phone_number : option string
}.

(** [UserUpdate]: a changeset; a field that is [None] is left alone by
    the update. *)
Record UserUpdate := {
  upd_user_id : string;
  upd_full_name : option string;
  upd_phone_number : option string;
  upd_email : option string
}.

(** [schemas.User]: the profile returned by [read_user_me]. *)
Record User := {
  id : string;
  email : string;
  is_active : bool;
  full_name : string;
  created_at : Z;
  updated_at : Z;
  role : option string
}.

(** [PaginatedItemList]. *)
Record PaginatedItemList := {
  total : Z;
  items : list models.Item;
  skip : Z;
  limit : Z
}.

End schemas.

(** A JSON scalar of a response body, and [fastapi.responses.JSONResponse]:
    a dict literal and the HTTP status code. *)
Inductive JSON :=
| JStr (s : string)
| JInt (n : Z).

Record JSONResponse := {
  content : list (string * JSON);
  status_code : Z
}.

(** ** The persistence store and the handler monad *)

(** The tables behind the [Session]. *)
Record Store := {
  users : list models.User;
  user_roles : list models.UserRole;
  items : list models.Item
}.

(** What a handler does besides computing: log lines and calls to
    collaborators, in the order they happen. *)
Inductive Event :=
| logger_info (line : string)
| get_by_email_or_phone_called (email phone_number : string)
| get_by_email_called (email : string)
| verify_password_called (plain hashed : string)
| user_role_get_by_user_id_called (user_id : string)
| user_create_called (email : string)
| user_update_called (user_id : string)
| get_items_called (status skip limit : Z).

Record World := {
  db : Store;
  events : list Event;
  uuid_draws : nat;
  clock : Z
}.

(** The exceptions the handlers meet: FastAPI's [HTTPException] and
    Python's [AttributeError] (an attribute read on [None]). *)
Inductive Exception :=
| HTTPException (status_code : Z) (detail : string)
| AttributeError (msg : string).

Inductive Result (A : Type) :=
| Return (a : A)
| Raise (e : Exception).
Arguments Return {A} a.
Arguments Raise {A} e.

Definition M (A : Type) : Type := World -> Result A * World.

Definition ret {A} (a : A) : M A := fun w => (Return a, w).

Definition raise {A} (e : Exception) : M A := fun w => (Raise e, w).

Definition bind {A B} (m : M A) (k : A -> M B) : M B :=
  fun w =>
    match m w with
    | (Return a, w') => k a w'
    | (Raise e, w') => (Raise e, w')
    end.

Declare Scope handler_scope.
Delimit Scope handler_scope with handler.
Notation "x <~ m ;; k" := (bind m (fun x => k))
  (at level 100, m at next level, right associativity) : handler_scope.
Notation "m ;;; k" := (bind m (fun _ => k))
  (at level 100, right associativity) : handler_scope.
Local Open Scope handler_scope.

(** [try: body except HTTPException as e: handler e]: only an
    [HTTPException] is caught; any other exception leaves the handler. *)
Definition try_except_HTTPException {A} (body : M A) (handler : Z -> string -> M A) : M A :=
  fun w =>
    match body w with
    | (Raise (HTTPException sc d), w') => handler sc d w'
    | other => other
    end.

Definition record (e : Event) : M unit :=
  fun w => (Return tt,
            {| db := db w; events := events w ++ [e];
               uuid_draws := uuid_draws w; clock := clock w |}).

Definition get_db : M Store := fun w => (Return (db w), w).

Definition put_db (s : Store) : M unit :=
  fun w => (Return tt,
            {| db := s; events := events w;
               uuid_draws := uuid_draws w; clock := clock w |}).

(** [if row:] on "a row or [None]": a row is truthy, [None] is not. *)
Definition truthy {A} (row : option A) : bool :=
  match row with
  | Some _ => true
  | None => false
  end.

(** [if cond: raise e]. *)
Definition raise_if (cond : bool) (e : Exception) : M unit :=
  if cond then raise e else ret tt.

(** [app.core.security] and the identifier generator ([uuid4], the default
    of a primary key): external libraries, kept abstract.  [uuid4 n] is the
    identifier produced by the [n]-th draw. *)
Class Externals := {
  pwd_verify : string -> string -> bool;
  pwd_hash : string -> string;
  uuid4 : nat -> string
}.

(** ** Collaborators *)

Module security.

(** [security.verify_password(plain, hashed)]. *)
Definition verify_password {E : Externals} (plain hashed : string) : M bool :=
  record (verify_password_called plain hashed);;;
  ret (pwd_verify plain hashed).

End security.

Module crud.

Module user.

(** Modelled from the spec: the filter of [crud.user.get_by_email_or_phone],
    "email equals the identifier OR phone number equals the identifier"; a
    row without a phone number matches on its email only. *)
Definition email_or_phone_is (email phone_number : string) (u : models.User) : bool :=
  String.eqb (models.email u) email
  || match models.phone_number u with
     | Some p => String.eqb p phone_number
     | None => false
     end.

(** Modelled from the spec: [crud.user.get_by_email_or_phone] is not among the
    available sources.  "Resolve a user whose email equals the identifier OR
    whose phone number equals the identifier"; the first such row, or
    [None]. *)
Definition first_by_email_or_phone (s : Store) (email phone_number : string)
  : option models.User :=
  List.find (email_or_phone_is email phone_number) (users s).

(** Modelled from the spec: the call [crud.user.get_by_email_or_phone(db,
    email=..., phone_number=...)], which reads the store and changes
    nothing. *)
Definition get_by_email_or_phone (email phone_number : string) : M (option models.User) :=
  record (get_by_email_or_phone_called email phone_number);;;
  s <~ get_db;;
  ret (first_by_email_or_phone s email phone_number).

(** Modelled from the spec: [crud.user.get_by_email] is not among the
    available sources.
    The first row with this email, or [None]. *)
Definition first_by_email (s : Store) (email : string) : option models.User :=
  List.find (fun u => String.eqb (models.email u) email) (users s).

(** Modelled from the spec: the call [crud.user.get_by_email(db, email=...)]. *)
Definition get_by_email (email : string) : M (option models.User) :=
  record (get_by_email_called email);;;
  s <~ get_db;;
  ret (first_by_email s email).

(** Modelled from the spec: the row [crud.user.create] builds from a
    [UserCreate]; the secret is stored hashed, the identifier is generated,
    the row is active and has no role assignment yet. *)
Definition new_row {E : Externals} (uid : string) (now : Z) (obj_in : schemas.UserCreate)
  : models.User :=
  {| models.id := uid;
     models.user_id := uid;
     models.email := schemas.email_id obj_in;
     models.phone_number := schemas.create_phone_number obj_in;
     models.full_name := schemas.create_full_name obj_in;
     models.password := pwd_hash (schemas.create_password obj_in);
     models.is_active := true;
     models.created_at := now;
     models.updated_at := now;
     models.user_role := None |}.

(** Modelled from the spec: [crud.user.create] is not among the
    available sources.
    "Persist a new record with a hashed secret": a row with a fresh
    identifier is added to the table and returned. *)
Definition create {E : Externals} (obj_in : schemas.UserCreate) : M models.User :=
  record (user_create_called (schemas.email_id obj_in));;;
  fun w =>
    let row := new_row (uuid4 (uuid_draws w)) (clock w) obj_in in
    (Return row,
     {| db := {| users := users (db w) ++ [row];
                 user_roles := user_roles (db w);
                 items := items (db w) |};
        events := events w;
        uuid_draws := S (uuid_draws w);
        clock := clock w |}).

(** Modelled from the spec: a changeset merged into a row by
    [crud.user.update]; a field that is set replaces the row's, a field
    that is [None] leaves it. *)
Definition merge (db_obj : models.User) (obj_in : schemas.UserUpdate) : models.User :=
  {| models.id := models.id db_obj;
     models.user_id := models.user_id db_obj;
     models.email :=
       match schemas.upd_email obj_in with
       | Some e => e
       | None => models.email db_obj
       end;
     models.phone_number :=
       match schemas.upd_phone_number obj_in with
       | Some p => Some p
       | None => models.phone_number db_obj
       end;
     models.full_name :=
       match schemas.upd_full_name obj_in with
       | Some n => n
       | None => models.full_name db_obj
       end;
     models.password := models.password db_obj;
     models.is_active := models.is_active db_obj;
     models.created_at := models.created_at db_obj;
     models.updated_at := models.updated_at db_obj;
     models.user_role := models.user_role db_obj |}.

(** Modelled from the spec: the table after [crud.user.update] wrote [row]
    in place of [db_obj], the row with the same primary key. *)
Definition store_row (db_obj row : models.User) (table : list models.User)
  : list models.User :=
  List.map (fun u => if String.eqb (models.user_id u) (models.user_id db_obj)
                     then row else u) table.

(** Modelled from the spec: [crud.user.update] is not among the
    available sources.
    "Merge only the fields explicitly provided into the existing
    record, leaving unspecified fields untouched"; the row is written
    back and returned. *)
Definition update (db_obj : models.User) (obj_in : schemas.UserUpdate) : M models.User :=
  record (user_update_called (models.user_id db_obj));;;
  s <~ get_db;;
  let row := merge db_obj obj_in in
  put_db {| users := store_row db_obj row (users s);
            user_roles := user_roles s;
            items := items s |};;;
  ret row.

(** Modelled from the spec: [crud.user.get_items] is not among the
    available sources.
    "Fetch [limit] items starting at [skip] matching a status filter". *)
Definition window (s : Store) (status skip limit : Z) : list models.Item :=
  List.firstn (Z.to_nat limit)
    (List.skipn (Z.to_nat skip)
       (List.filter (fun i => Z.eqb (models.status i) status) (items s))).

(** Modelled from the spec: the call [crud.user.get_items(db, status=...,
    skip=..., limit=...)]. *)
Definition get_items (status skip limit : Z) : M (list models.Item) :=
  record (get_items_called status skip limit);;;
  s <~ get_db;;
  ret (window s status skip limit).

(** Modelled from the spec: [crud.user.get] ("[get_by_id(id)]") is not
    among the available sources.  The first row with this [id], or [None]. *)
Definition first_by_id (s : Store) (id : string) : option models.User :=
  List.find (fun u => String.eqb (models.id u) id) (users s).

(** Modelled from the spec: the call [crud.user.get(db, id=...)]; it reads
    the store and changes nothing. *)
Definition get (id : string) : M (option models.User) :=
  s <~ get_db;;
  ret (first_by_id s id).

(** Modelled from the spec: [crud.user.get_by_user_id] is not among the
    available sources.  The first row with this [user_id], or [None]. *)
Definition first_by_user_id (s : Store) (user_id : string) : option models.User :=
  List.find (fun u => String.eqb (models.user_id u) user_id) (users s).

(** Modelled from the spec: the call [crud.user.get_by_user_id(db,
    user_id=...)]; it reads the store and changes nothing. *)
Definition get_by_user_id (user_id : string) : M (option models.User) :=
  s <~ get_db;;
  ret (first_by_user_id s user_id).

End user.

Module user_role.

(** Modelled from the spec: [crud.user_role.get_by_user_id] is not among the
    available sources.  "[resolve_role(user_id) -> role_assignment | absent]": the
    assignment of this user, or [None]. *)
Definition first_by_user_id (s : Store) (user_id : string) : option models.UserRole :=
  List.find (fun r => String.eqb (models.ur_user_id r) user_id) (user_roles s).

(** Modelled from the spec: the call [crud.user_role.get_by_user_id(db,
    user_id=...)]. *)
Definition get_by_user_id (user_id : string) : M (option models.UserRole) :=
  record (user_role_get_by_user_id_called user_id);;;
  s <~ get_db;;
  ret (first_by_user_id s user_id).

End user_role.

End crud.

(** ** The handlers of [routers/users.py] *)

(** [db_user.role_id] where [db_user] may be [None]: reading an attribute
    of [None] raises [AttributeError]. *)
Definition getattr_role_id (db_user : option models.UserRole) : M string :=
  match db_user with
  | Some r => ret (models.role_id r)
  | None => raise (AttributeError "'NoneType' object has no attribute 'role_id'")
  end.

(** The body of a failure response: [{"detail": str(e.detail), "status":
    e.status_code}] with the same status code. *)
Definition failure_response (sc : Z) (d : string) : JSONResponse :=
  {| content := [("detail", JStr d); ("status", JInt sc)]; status_code := sc |}.

(** [POST /users/user-login]: the first [def create_user] of the file
    (lines 46-77); the second one, [POST /users/create-user], is
    [create_user] below. *)
Definition user_login {E : Externals} (user_dtl : schemas.UserLogin) : M JSONResponse :=
  record (logger_info (String.append "email id or phone no ------> " (schemas.email_or_phone_no user_dtl)));;;
  try_except_HTTPException
    (user <~ crud.user.get_by_email_or_phone
               (schemas.email_or_phone_no user_dtl) (schemas.email_or_phone_no user_dtl);;
     user <~ match user with
             | Some user =>
                 verified <~ security.verify_password
                               (schemas.login_password user_dtl) (models.password user);;
                 raise_if (negb verified)
                   (HTTPException 409 "Please check user credentials");;;
                 db_user <~ crud.user_role.get_by_user_id (models.user_id user);;
                 role_id <~ getattr_role_id db_user;;
                 raise_if (negb (String.eqb role_id (schemas.login_user_role user_dtl)))
                   (HTTPException 409 "User role does not match");;;
                 ret user
             | None =>
                 raise (HTTPException 409 "User does not exist, please sign up.")
             end;;
     ret {| content := [("message", JStr "Login successful");
                        ("status", JInt 200);
                        ("user_id", JStr (models.user_id user))];
            status_code := 200 |})
    (fun sc d => ret (failure_response sc d)).

(** [POST /users/create-user] (lines 80-96). *)
Definition create_user {E : Externals} (user_in : schemas.UserCreate) : M JSONResponse :=
  try_except_HTTPException
    (user <~ crud.user.get_by_email (schemas.email_id user_in);;
     raise_if (truthy user)
       (HTTPException 409 "The user with this user email already exists in the system.");;;
     user <~ crud.user.create user_in;;
     ret {| content := [("message", JStr "User created successfully");
                        ("status", JInt 200)];
            status_code := 200 |})
    (fun sc d => ret (failure_response sc d)).

(** The changeset built from the encoded current user: every field of
    [UserUpdate] takes the row's value. *)
Definition UserUpdate_of (current_user : models.User) : schemas.UserUpdate :=
  {| schemas.upd_user_id := models.user_id current_user;
     schemas.upd_full_name := Some (models.full_name current_user);
     schemas.upd_phone_number := models.phone_number current_user;
     schemas.upd_email := Some (models.email current_user) |}.

(** [PUT /users/me] (lines 107-128); a body field that is absent is [None]. *)
Definition update_user_me (full_name phone_number email : option string)
    (current_user : models.User) : M models.User :=
  let user_in := UserUpdate_of current_user in
  let user_in :=
    match phone_number with
    | Some p =>
        {| schemas.upd_user_id := schemas.upd_user_id user_in;
           schemas.upd_full_name := schemas.upd_full_name user_in;
           schemas.upd_phone_number := Some p;
           schemas.upd_email := schemas.upd_email user_in |}
    | None => user_in
    end in
  let user_in :=
    match full_name with
    | Some n =>
        {| schemas.upd_user_id := schemas.upd_user_id user_in;
           schemas.upd_full_name := Some n;
           schemas.upd_phone_number := schemas.upd_phone_number user_in;
           schemas.upd_email := schemas.upd_email user_in |}
    | None => user_in
    end in
  let user_in :=
    match email with
    | Some e =>
        {| schemas.upd_user_id := schemas.upd_user_id user_in;
           schemas.upd_full_name := schemas.upd_full_name user_in;
           schemas.upd_phone_number := schemas.upd_phone_number user_in;
           schemas.upd_email := Some e |}
    | None => user_in
    end in
  user <~ crud.user.update current_user user_in;;
  ret user.

(** [GET /users/me] (lines 131-152). *)
Definition read_user_me (current_user : models.User) : M schemas.User :=
  let role :=
    match models.user_role current_user with
    | None => None
    | Some user_role => Some (models.name (models.role user_role))
    end in
  let user_data :=
    {| schemas.id := models.id current_user;
       schemas.email := models.email current_user;
       schemas.is_active := models.is_active current_user;
       schemas.full_name := models.full_name current_user;
       schemas.created_at := models.created_at current_user;
       schemas.updated_at := models.updated_at current_user;
       schemas.role := role |} in
  ret user_data.

(** [GET /users/items/] (lines 231-250); [page] and [limit] are validated
    ([ge=1]) before the handler runs. *)
Definition get_items (status page limit : Z) : M schemas.PaginatedItemList :=
  let skip := (page - 1) * limit in
  items <~ crud.user.get_items status skip limit;;
  ret {| schemas.total := Z.of_nat (length items);
         schemas.items := items;
         schemas.skip := skip;
         schemas.limit := limit |}.

(** [POST /users/open] (lines 155-185).  [USERS_OPEN_REGISTRATION] is the
    flag of [app.core.config.settings].  The handler has no [try]: what it
    raises leaves it.  It builds the [UserCreate] with the keyword [email],
    which is not the field [email_id] that the create handler reads; what
    the schema class makes of that keyword (a default, or a validation
    error) is not among the available sources, so the construction
    [UserCreate_of_body] is a parameter. *)
Definition create_user_open {E : Externals} (USERS_OPEN_REGISTRATION : bool)
    (UserCreate_of_body : string -> string -> string -> option string
                          -> M schemas.UserCreate)
    (password email full_name : string) (phone_number : option string) : M models.User :=
  raise_if (negb USERS_OPEN_REGISTRATION)
    (HTTPException 403 "Open user registration is forbidden on this server");;;
  user <~ crud.user.get_by_email email;;
  raise_if (truthy user)
    (HTTPException 409 "The user with this username already exists in the system");;;
  user_in <~ UserCreate_of_body password email full_name phone_number;;
  user <~ crud.user.create user_in;;
  ret user.

(** [GET /users/{user_id}] (lines 188-205): the row, or the failure
    response built from the caught exception. *)
Definition read_user_by_id (user_id : string) : M (models.User + JSONResponse) :=
  try_except_HTTPException
    (user <~ crud.user.get user_id;;
     match user with
     | None => raise (HTTPException 404 "The user does not exist in the system")
     | Some user => ret (inl user)
     end)
    (fun sc d => ret (inr (failure_response sc d))).

(** [PUT /users/update-user] (lines 208-228); the log line is inside the
    [try]. *)
Definition update_user (user_in : schemas.UserUpdate) : M JSONResponse :=
  try_except_HTTPException
    (record (logger_info (String.append "user id ------> " (schemas.upd_user_id user_in)));;;
     user <~ crud.user.get_by_user_id (schemas.upd_user_id user_in);;
     match user with
     | None => raise (HTTPException 404 "The user does not exist in the system")
     | Some user =>
         user <~ crud.user.update user user_in;;
         ret {| content := [("message", JStr "Updated user details successfully");
                            ("status", JInt 200)];
                status_code := 200 |}
     end)
    (fun sc d => ret (failure_response sc d)).

(** ** Sample data

    A hashing scheme that can be run (the stored secret is the plaintext
    behind a prefix), and a store with two users: [asha] has a role
    assignment, [bela] has none. *)

Definition sample_externals : Externals :=
  {| pwd_verify plain hashed := String.eqb (String.append "hashed:" plain) hashed;
     pwd_hash plain := String.append "hashed:" plain;
     uuid4 n := String.append "uuid-" (String.concat "" (List.repeat "x" n)) |}.

Definition patient : models.Role := {| models.name := "PATIENT" |}.

Definition asha_role : models.UserRole :=
  {| models.ur_user_id := "u-1"; models.role_id := "r-2"; models.role := patient |}.

Definition asha : models.User :=
  {| models.id := "u-1";
     models.user_id := "u-1";
     models.email := "asha@example.org";
     models.phone_number := Some "5550001";
     models.full_name := "Asha Rao";
     models.password := "hashed:s3cret";
     models.is_active := true;
     models.created_at := 1700000000;
     models.updated_at := 1700000500;
     models.user_role := Some asha_role |}.

Definition bela : models.User :=
  {| models.id := "u-2";
     models.user_id := "u-2";
     models.email := "bela@example.org";
     models.phone_number := None;
     models.full_name := "Bela Kun";
     models.password := "hashed:pa55";
     models.is_active := true;
     models.created_at := 1700000100;
     models.updated_at := 1700000100;
     models.user_role := None |}.

Definition sample_items : list models.Item :=
  [ {| models.item_name := "a"; models.status := 1 |};
    {| models.item_name := "b"; models.status := 0 |};
    {| models.item_name := "c"; models.status := 1 |};
    {| models.item_name := "d"; models.status := 1 |} ].

Definition sample_store : Store :=
  {| users := [asha; bela]; user_roles := [asha_role]; items := sample_items |}.

Definition sample_world : World :=
  {| db := sample_store; events := []; uuid_draws := 0; clock := 1700001000 |}.

(** A second store, as the create handler admits it (it compares emails
    only): [dana] was registered after [asha] with the phone number of
    [asha]; each of the two has her own secret and role assignment. *)
Definition dana_role : models.UserRole :=
  {| models.ur_user_id := "u-3"; models.role_id := "r-2"; models.role := patient |}.

Definition dana : models.User :=
  {| models.id := "u-3";
     models.user_id := "u-3";
     models.email := "dana@example.org";
     models.phone_number := Some "5550001";
     models.full_name := "Dana Ito";
     models.password := "hashed:d4na";
     models.is_active := true;
     models.created_at := 1700000900;
     models.updated_at := 1700000900;
     models.user_role := Some dana_role |}.

Definition shared_phone_store : Store :=
  {| users := [asha; dana]; user_roles := [asha_role; dana_role]; items := [] |}.

Definition shared_phone_world : World :=
  {| db := shared_phone_store; events := []; uuid_draws := 0; clock := 1700001000 |}.

Definition login_as (ident secret role : string) : schemas.UserLogin :=
  {| schemas.email_or_phone_no := ident;
     schemas.login_password := secret;
     schemas.login_user_role := role |}.

(** ** Running the handlers *)

(** The world after a call that only recorded the events [es]. *)
Definition logged (w : World) (es : list Event) : World :=
  {| db := db w; events := events w ++ es;
     uuid_draws := uuid_draws w; clock := clock w |}.

(** The events every login starts with: the log line and the lookup. *)
Definition login_prelude (ident : string) : list Event :=
  [logger_info (String.append "email id or phone no ------> " ident);
   get_by_email_or_phone_called ident ident].

(** The events of a login that reached the role resolver. *)
Definition login_checks (user_dtl : schemas.UserLogin) (U : models.User) : list Event :=
  login_prelude (schemas.email_or_phone_no user_dtl) ++
  [verify_password_called (schemas.login_password user_dtl) (models.password U);
   user_role_get_by_user_id_called (models.user_id U)].


(** The three messages a failed login can carry. *)
Definition login_failure_details : list string :=
  ["User does not exist, please sign up.";
   "Please check user credentials";
   "User role does not match"].

Ltac run_handler :=
  unfold user_login, create_user, update_user_me, read_user_me, get_items,
    try_except_HTTPException, security.verify_password,
    crud.user.get_by_email_or_phone, crud.user.get_by_email,
    crud.user.create, crud.user.update, crud.user.get_items,
    crud.user_role.get_by_user_id, getattr_role_id, raise_if,
    bind, record, get_db, put_db, ret, raise, logged, login_prelude;
  cbn [db events uuid_draws clock fst snd].

Ltac tidy_events := rewrite <- ?app_assoc; cbn [app].

Ltac run_more :=
  unfold create_user_open, read_user_by_id, update_user,
    crud.user.get, crud.user.get_by_user_id;
  run_handler.

Lemma find_unique {A} (p : A -> bool) (l : list A) (x : A) :
  In x l -> p x = true ->
  (forall y, In y l -> p y = true -> y = x) ->
  List.find p l = Some x.
Proof.
  intros Hin Hp Huniq.
  destruct (List.find p l) as [y|] eqn:Hfind.
  - apply find_some in Hfind as [Hy Hpy]. f_equal. now apply Huniq.
  - pose proof (find_none p l Hfind x Hin) as Hnone. congruence.
Qed.


Section Login.

Context {E : Externals}.
Variable w : World.
Variable user_dtl : schemas.UserLogin.

Local Abbreviation ident := (schemas.email_or_phone_no user_dtl).

(** No user for the identifier: the [else] branch raises, the handler
    answers, and only the lookup was called. *)
Lemma user_login_not_found :
  crud.user.first_by_email_or_phone (db w) ident ident = None ->
  user_login user_dtl w =
    (Return (failure_response 409 "User does not exist, please sign up."),
     logged w (login_prelude ident)).
Proof.
  intros Hnone. run_handler. rewrite Hnone. cbn.
  now tidy_events.
Qed.

(** A user is found and the secret does not verify. *)
Lemma user_login_bad_secret (U : models.User) :
  crud.user.first_by_email_or_phone (db w) ident ident = Some U ->
  pwd_verify (schemas.login_password user_dtl) (models.password U) = false ->
  user_login user_dtl w =
    (Return (failure_response 409 "Please check user credentials"),
     logged w (login_prelude ident ++
               [verify_password_called (schemas.login_password user_dtl)
                  (models.password U)])).
Proof.
  intros Hsome Hbad. run_handler. rewrite Hsome. cbn.
  rewrite Hbad. cbn. now tidy_events.
Qed.

(** A user is found, the secret verifies, and the resolver has no
    assignment: [db_user] is [None] and [db_user.role_id] raises. *)
Lemma user_login_no_assignment (U : models.User) :
  crud.user.first_by_email_or_phone (db w) ident ident = Some U ->
  pwd_verify (schemas.login_password user_dtl) (models.password U) = true ->
  crud.user_role.first_by_user_id (db w) (models.user_id U) = None ->
  user_login user_dtl w =
    (Raise (AttributeError "'NoneType' object has no attribute 'role_id'"),
     logged w (login_checks user_dtl U)).
Proof.
  intros Hsome Hok Hrole. unfold login_checks. run_handler.
  rewrite Hsome. cbn. rewrite Hok. cbn. rewrite Hrole. cbn.
  now tidy_events.
Qed.

(** The assignment carries another role than the claimed one. *)
Lemma user_login_role_mismatch (U : models.User) (a : models.UserRole) :
  crud.user.first_by_email_or_phone (db w) ident ident = Some U ->
  pwd_verify (schemas.login_password user_dtl) (models.password U) = true ->
  crud.user_role.first_by_user_id (db w) (models.user_id U) = Some a ->
  models.role_id a <> schemas.login_user_role user_dtl ->
  user_login user_dtl w =
    (Return (failure_response 409 "User role does not match"),
     logged w (login_checks user_dtl U)).
Proof.
  intros Hsome Hok Hrole Hne. unfold login_checks. run_handler.
  rewrite Hsome. cbn. rewrite Hok. cbn. rewrite Hrole. cbn.
  apply String.eqb_neq in Hne. rewrite Hne. cbn. now tidy_events.
Qed.

(** All three checks pass. *)
Lemma user_login_passes (U : models.User) (a : models.UserRole) :
  crud.user.first_by_email_or_phone (db w) ident ident = Some U ->
  pwd_verify (schemas.login_password user_dtl) (models.password U) = true ->
  crud.user_role.first_by_user_id (db w) (models.user_id U) = Some a ->
  models.role_id a = schemas.login_user_role user_dtl ->
  user_login user_dtl w =
    (Return {| content := [("message", JStr "Login successful");
                           ("status", JInt 200);
                           ("user_id", JStr (models.user_id U))];
               status_code := 200 |},
     logged w (login_checks user_dtl U)).
Proof.
  intros Hsome Hok Hrole Heq. unfold login_checks. run_handler.
  rewrite Hsome. cbn. rewrite Hok. cbn. rewrite Hrole. cbn.
  apply String.eqb_eq in Heq. rewrite Heq. cbn. now tidy_events.
Qed.

End Login.

(** Every run of the login ends in one of five ways. *)
Lemma user_login_cases {E : Externals} (w : World) (user_dtl : schemas.UserLogin) :
  let ident := schemas.email_or_phone_no user_dtl in
  (crud.user.first_by_email_or_phone (db w) ident ident = None /\
   fst (user_login user_dtl w) =
     Return (failure_response 409 "User does not exist, please sign up.")) \/
  (exists U,
     crud.user.first_by_email_or_phone (db w) ident ident = Some U /\
     ((pwd_verify (schemas.login_password user_dtl) (models.password U) = false /\
       fst (user_login user_dtl w) =
         Return (failure_response 409 "Please check user credentials")) \/
      (pwd_verify (schemas.login_password user_dtl) (models.password U) = true /\
       ((crud.user_role.first_by_user_id (db w) (models.user_id U) = None /\
         fst (user_login user_dtl w) =
           Raise (AttributeError "'NoneType' object has no attribute 'role_id'")) \/
        (exists a,
           crud.user_role.first_by_user_id (db w) (models.user_id U) = Some a /\
           ((models.role_id a <> schemas.login_user_role user_dtl /\
             fst (user_login user_dtl w) =
               Return (failure_response 409 "User role does not match")) \/
            (models.role_id a = schemas.login_user_role user_dtl /\
             fst (user_login user_dtl w) =
               Return {| content := [("message", JStr "Login successful");
                                     ("status", JInt 200);
                                     ("user_id", JStr (models.user_id U))];
                         status_code := 200 |}))))))).
Proof.
  intros ident.
  destruct (crud.user.first_by_email_or_phone (db w) ident ident) as [U|] eqn:Hu.
  2:{ left. split; [reflexivity|]. now rewrite (user_login_not_found w user_dtl Hu). }
  right. exists U. split; [reflexivity|].
  destruct (pwd_verify (schemas.login_password user_dtl) (models.password U)) eqn:Hv.
  2:{ left. split; [reflexivity|]. now rewrite (user_login_bad_secret w user_dtl U Hu Hv). }
  right. split; [reflexivity|].
  destruct (crud.user_role.first_by_user_id (db w) (models.user_id U)) as [a|] eqn:Ha.
  2:{ left. split; [reflexivity|].
      now rewrite (user_login_no_assignment w user_dtl U Hu Hv Ha). }
  right. exists a. split; [reflexivity|].
  destruct (String.eqb_spec (models.role_id a) (schemas.login_user_role user_dtl)) as [Heq|Hne].
  - right. split; [exact Heq|].
    now rewrite (user_login_passes w user_dtl U a Hu Hv Ha Heq).
  - left. split; [exact Hne|].
    now rewrite (user_login_role_mismatch w user_dtl U a Hu Hv Ha Hne).
Qed.

(** ** The login flow *)

(** C1, as worded, at a concrete store: [dana] is stored, "5550001" is her
    phone number, "d4na" verifies against her stored hashed secret and her
    role assignment carries "r-2"; the login with these answers 409
    "Please check user credentials", because the lookup resolves the phone
    number to [asha], who has it too. *)
Lemma login_shared_phone_fails :
  In dana (users shared_phone_store) /\
  models.phone_number dana = Some "5550001" /\
  @pwd_verify sample_externals "d4na" (models.password dana) = true /\
  crud.user_role.first_by_user_id shared_phone_store (models.user_id dana)
    = Some dana_role /\
  models.role_id dana_role = "r-2" /\
  fst (@user_login sample_externals (login_as "5550001" "d4na" "r-2") shared_phone_world) =
    Return (failure_response 409 "Please check user credentials") /\
  fst (@user_login sample_externals (login_as "5550001" "d4na" "r-2") shared_phone_world) <>
    Return {| content := [("message", JStr "Login successful");
                          ("status", JInt 200);
                          ("user_id", JStr (models.user_id dana))];
              status_code := 200 |}.
Proof.
  split; [cbn; tauto|]. repeat (split; [reflexivity|]).
  vm_compute. discriminate.
Qed.

(** C1, amended.  For a stored user [U] whose identifier, [U.email] or
    [U.phone_number], is the email or phone number of no other stored
    user, whose secret [S] verifies against the stored hashed secret and
    whose role assignment [a], the only one of [U], carries the role [R],
    the login with that identifier, the secret [S] and the claimed role
    [R] returns the success response: status 200, the message "Login
    successful" and [U]'s user identifier. *)
Theorem login_succeeds_for_stored_user {E : Externals} (w : World)
    (U : models.User) (a : models.UserRole) (ident S R : string) :
  In U (users (db w)) ->
  ident = models.email U \/ models.phone_number U = Some ident ->
  (forall V, In V (users (db w)) ->
     crud.user.email_or_phone_is ident ident V = true -> V = U) ->
  pwd_verify S (models.password U) = true ->
  In a (user_roles (db w)) ->
  models.ur_user_id a = models.user_id U ->
  models.role_id a = R ->
  (forall b, In b (user_roles (db w)) ->
     models.ur_user_id b = models.user_id U -> b = a) ->
  fst (user_login (login_as ident S R) w) =
    Return {| content := [("message", JStr "Login successful");
                          ("status", JInt 200);
                          ("user_id", JStr (models.user_id U))];
              status_code := 200 |}.
Proof.
  intros HU Hident Honly Hsecret Ha Hkey Hrole Hone.
  assert (Hmatch : crud.user.email_or_phone_is ident ident U = true).
  { unfold crud.user.email_or_phone_is.
    destruct Hident as [-> | ->].
    - now rewrite String.eqb_refl.
    - rewrite String.eqb_refl. apply orb_true_r. }
  assert (Hfound : crud.user.first_by_email_or_phone (db w) ident ident = Some U)
    by (apply find_unique; assumption).
  assert (Hassigned : crud.user_role.first_by_user_id (db w) (models.user_id U) = Some a).
  { apply find_unique; [assumption | now apply String.eqb_eq |].
    intros b Hb Hbk. apply Hone; [assumption | now apply String.eqb_eq]. }
  now rewrite (user_login_passes w (login_as ident S R) U a Hfound Hsecret Hassigned Hrole).
Qed.

(** C1 amended, at [asha] of the sample store, by her phone number. *)
Lemma login_succeeds_for_stored_user_witness :
  fst (@user_login sample_externals (login_as "5550001" "s3cret" "r-2") sample_world) =
    Return {| content := [("message", JStr "Login successful");
                          ("status", JInt 200);
                          ("user_id", JStr "u-1")];
              status_code := 200 |}.
Proof.
  apply (@login_succeeds_for_stored_user sample_externals sample_world asha asha_role
           "5550001" "s3cret" "r-2").
  - cbn. tauto.
  - right. reflexivity.
  - intros V [<- | [<- | []]]; [reflexivity | intros Hm; vm_compute in Hm; discriminate].
  - reflexivity.
  - cbn. tauto.
  - reflexivity.
  - reflexivity.
  - intros b [<- | []]. reflexivity.
Defined.

(** C2.  When the user is found and the secret verifies but the role
    resolver has no assignment for the user's identifier, the login does
    not answer with the role mismatch: reading [role_id] of [None] raises
    [AttributeError], which the handler does not catch, so no response is
    returned at all. *)
Theorem login_absent_assignment_raises {E : Externals} (w : World)
    (user_dtl : schemas.UserLogin) (U : models.User) :
  crud.user.first_by_email_or_phone (db w)
    (schemas.email_or_phone_no user_dtl) (schemas.email_or_phone_no user_dtl) = Some U ->
  pwd_verify (schemas.login_password user_dtl) (models.password U) = true ->
  crud.user_role.first_by_user_id (db w) (models.user_id U) = None ->
  fst (user_login user_dtl w) =
    Raise (AttributeError "'NoneType' object has no attribute 'role_id'") /\
  fst (user_login user_dtl w) <>
    Return (failure_response 409 "User role does not match").
Proof.
  intros Hu Hv Ha.
  rewrite (user_login_no_assignment w user_dtl U Hu Hv Ha). cbn.
  split; [reflexivity | discriminate].
Qed.

(** C2, at [bela] of the sample store, who has no assignment. *)
Lemma login_absent_assignment_raises_witness :
  fst (@user_login sample_externals (login_as "bela@example.org" "pa55" "r-2") sample_world) =
    Raise (AttributeError "'NoneType' object has no attribute 'role_id'") /\
  fst (@user_login sample_externals (login_as "bela@example.org" "pa55" "r-2") sample_world) <>
    Return (failure_response 409 "User role does not match").
Proof.
  apply (@login_absent_assignment_raises sample_externals sample_world
           (login_as "bela@example.org" "pa55" "r-2") bela); reflexivity.
Defined.

(** C3.  An exception does leave the login handler: with the correct secret
    of [bela], who has no role assignment, the call ends in an
    [AttributeError] and returns no (status code, message) pair. *)
Theorem login_exception_escapes :
  fst (@user_login sample_externals (login_as "bela@example.org" "pa55" "r-1") sample_world) =
    Raise (AttributeError "'NoneType' object has no attribute 'role_id'") /\
  forall resp : JSONResponse,
    fst (@user_login sample_externals (login_as "bela@example.org" "pa55" "r-1") sample_world)
    <> Return resp.
Proof.
  split; [reflexivity | intros resp; vm_compute; discriminate].
Qed.







(** C9.  Every failure of the login that the handler answers has status
    409, in the response and in its body, whatever the failure: no user
    for the identifier (user does not exist), a secret that does not
    verify (credentials), a role assignment other than the claimed role
    (role).  Each carries its own message, the three messages are pairwise
    different, and a returned response that is not the 200 success is one
    of these three; so only the message tells the failures apart. *)
Theorem login_failures_all_409 {E : Externals} (w : World)
    (user_dtl : schemas.UserLogin) :
  (crud.user.first_by_email_or_phone (db w)
     (schemas.email_or_phone_no user_dtl) (schemas.email_or_phone_no user_dtl) = None ->
   exists resp,
     fst (user_login user_dtl w) = Return resp /\
     status_code resp = 409 /\
     content resp = [("detail", JStr "User does not exist, please sign up.");
                     ("status", JInt 409)]) /\
  (forall U,
     crud.user.first_by_email_or_phone (db w)
       (schemas.email_or_phone_no user_dtl) (schemas.email_or_phone_no user_dtl) = Some U ->
     pwd_verify (schemas.login_password user_dtl) (models.password U) = false ->
     exists resp,
       fst (user_login user_dtl w) = Return resp /\
       status_code resp = 409 /\
       content resp = [("detail", JStr "Please check user credentials");
                       ("status", JInt 409)]) /\
  (forall U a,
     crud.user.first_by_email_or_phone (db w)
       (schemas.email_or_phone_no user_dtl) (schemas.email_or_phone_no user_dtl) = Some U ->
     pwd_verify (schemas.login_password user_dtl) (models.password U) = true ->
     crud.user_role.first_by_user_id (db w) (models.user_id U) = Some a ->
     models.role_id a <> schemas.login_user_role user_dtl ->
     exists resp,
       fst (user_login user_dtl w) = Return resp /\
       status_code resp = 409 /\
       content resp = [("detail", JStr "User role does not match");
                       ("status", JInt 409)]) /\
  (forall resp,
     fst (user_login user_dtl w) = Return resp ->
     status_code resp <> 200 ->
     status_code resp = 409 /\
     exists d, In d login_failure_details /\
               content resp = [("detail", JStr d); ("status", JInt 409)]) /\
  NoDup login_failure_details.
Proof.
  split; [|split; [|split; [|split]]].
  - intros Hu. eexists. rewrite (user_login_not_found w user_dtl Hu).
    repeat split.
  - intros U Hu Hv. eexists. rewrite (user_login_bad_secret w user_dtl U Hu Hv).
    repeat split.
  - intros U a Hu Hv Ha Hne. eexists.
    rewrite (user_login_role_mismatch w user_dtl U a Hu Hv Ha Hne). repeat split.
  - intros resp Hrun Hfail.
    destruct (user_login_cases w user_dtl)
      as [[_ Hr] | (U & _ & [[_ Hr] | (_ & [[_ Hr] | (a & _ & [[_ Hr] | [_ Hr]])])])];
      rewrite Hr in Hrun; try discriminate; injection Hrun as <-.
    + split; [reflexivity|]. eexists. split; [|reflexivity]. cbn. tauto.
    + split; [reflexivity|]. eexists. split; [|reflexivity]. cbn. tauto.
    + split; [reflexivity|]. eexists. split; [|reflexivity]. cbn. tauto.
    + now contradiction Hfail.
  - unfold login_failure_details.
    repeat (apply NoDup_cons; [cbn; intros H; intuition discriminate|]).
    apply NoDup_nil.
Qed.

(** C9, on the sample store: an unknown identifier, a wrong secret for
    [asha], and a role [asha] does not hold. *)
Lemma login_failures_all_409_witness :
  (exists resp,
     fst (@user_login sample_externals (login_as "nobody" "pa55" "r-2") sample_world)
       = Return resp /\
     status_code resp = 409 /\
     content resp = [("detail", JStr "User does not exist, please sign up.");
                     ("status", JInt 409)]) /\
  (exists resp,
     fst (@user_login sample_externals (login_as "asha@example.org" "wrong" "r-2")
            sample_world) = Return resp /\
     status_code resp = 409 /\
     content resp = [("detail", JStr "Please check user credentials");
                     ("status", JInt 409)]) /\
  (exists resp,
     fst (@user_login sample_externals (login_as "asha@example.org" "s3cret" "r-1")
            sample_world) = Return resp /\
     status_code resp = 409 /\
     content resp = [("detail", JStr "User role does not match");
                     ("status", JInt 409)]).
Proof.
  split; [|split].
  - apply (proj1 (@login_failures_all_409 sample_externals sample_world
                    (login_as "nobody" "pa55" "r-2"))).
    reflexivity.
  - apply (proj1 (proj2 (@login_failures_all_409 sample_externals sample_world
                           (login_as "asha@example.org" "wrong" "r-2"))) asha);
      reflexivity.
  - apply (proj1 (proj2 (proj2 (@login_failures_all_409 sample_externals sample_world
                                  (login_as "asha@example.org" "s3cret" "r-1"))))
             asha asha_role); [reflexivity | reflexivity | reflexivity | discriminate].
Defined.

(** ** The paginated item listing *)

Lemma In_firstn {A} (n : nat) (l : list A) (x : A) :
  In x (List.firstn n l) -> In x l.
Proof.
  revert l. induction n as [|n IH]; intros [|a l]; cbn; try tauto.
  intros [-> | Hx]; [now left | right; now apply IH].
Qed.

Lemma In_skipn {A} (n : nat) (l : list A) (x : A) :
  In x (List.skipn n l) -> In x l.
Proof.
  revert l. induction n as [|n IH]; intros [|a l]; cbn; try tauto.
  intros Hx. right. now apply IH.
Qed.

(** C4.  For [page >= 1] and [limit >= 1] the listing computes
    [skip = (page - 1) * limit], asks the store for the window of at most
    [limit] items that starts at [skip] among the items with the given
    status, and returns it with these [skip] and [limit] and with [total]
    the length of the returned list, which is at most [limit]; page 1 of
    size 10 has skip 0 and page 2 of size 10 has skip 10. *)
Theorem get_items_page (w : World) (status page limit : Z) :
  1 <= page -> 1 <= limit ->
  exists r,
    get_items status page limit w =
      (Return r, logged w [get_items_called status ((page - 1) * limit) limit]) /\
    schemas.skip r = (page - 1) * limit /\
    schemas.limit r = limit /\
    schemas.items r =
      List.firstn (Z.to_nat limit)
        (List.skipn (Z.to_nat ((page - 1) * limit))
           (List.filter (fun i => Z.eqb (models.status i) status) (items (db w)))) /\
    Forall (fun i => models.status i = status) (schemas.items r) /\
    schemas.total r = Z.of_nat (length (schemas.items r)) /\
    Z.of_nat (length (schemas.items r)) <= limit /\
    (page = 1 -> limit = 10 -> schemas.skip r = 0 /\ schemas.limit r = 10) /\
    (page = 2 -> limit = 10 -> schemas.skip r = 10 /\ schemas.limit r = 10).
Proof.
  intros Hpage Hlimit.
  eexists. split; [run_handler; reflexivity|]. cbn.
  repeat split; try (subst; reflexivity).
  - unfold crud.user.window. apply Forall_forall. intros i Hi.
    apply In_firstn, In_skipn, filter_In in Hi as [_ Hs].
    now apply Z.eqb_eq.
  - unfold crud.user.window.
    pose proof (firstn_le_length (Z.to_nat limit)
                  (List.skipn (Z.to_nat ((page - 1) * limit))
                     (List.filter (fun i => Z.eqb (models.status i) status)
                        (items (db w))))) as Hle.
    lia.
Qed.

(** C4, on the second page of size 2 of the sample items with status 1. *)
Lemma get_items_page_witness :
  exists r,
    get_items 1 2 2 sample_world =
      (Return r, logged sample_world [get_items_called 1 2 2]) /\
    schemas.skip r = 2 /\
    schemas.limit r = 2 /\
    schemas.items r = [ {| models.item_name := "d"; models.status := 1 |} ] /\
    schemas.total r = 1.
Proof.
  destruct (get_items_page sample_world 1 2 2) as (r & Hrun & Hskip & Hlim & Hitems & _ & Htotal & _);
    [lia | lia |].
  exists r. rewrite Htotal, Hitems. repeat split; assumption || reflexivity.
Defined.

(** ** User creation *)

Lemma find_present {A} (p : A -> bool) (l : list A) (x : A) :
  In x l -> p x = true -> exists y, List.find p l = Some y.
Proof.
  intros Hin Hp. destruct (List.find p l) as [y|] eqn:Hfind; [now exists y|].
  pose proof (find_none p l Hfind x Hin). congruence.
Qed.

Lemma find_app_absent {A} (p : A -> bool) (l l' : list A) :
  List.find p l = None -> List.find p (l ++ l') = List.find p l'.
Proof.
  induction l as [|a l IH]; cbn; [reflexivity|].
  destruct (p a); [discriminate | exact IH].
Qed.



(** ** Update and read of the current user *)

Lemma replace_row_twice (key : string) (row : models.User) (table : list models.User) :
  models.user_id row = key ->
  List.map (fun u => if String.eqb (models.user_id u) key then row else u)
    (List.map (fun u => if String.eqb (models.user_id u) key then row else u) table) =
  List.map (fun u => if String.eqb (models.user_id u) key then row else u) table.
Proof.
  intros Hkey. rewrite map_map. apply map_ext. intros u.
  destruct (String.eqb (models.user_id u) key) eqn:Hu; [|now rewrite Hu].
  now rewrite Hkey, String.eqb_refl.
Qed.

(** C8.  A partial update of the current user returns and stores a row in
    which each of [full_name], [phone_number] and [email] holds the value
    given in the request when one is given and its prior value otherwise,
    and every other attribute holds its prior value; the rows of other
    users and the other tables are left as they were; and the same update
    applied again, to the row and the store it produced, returns the same
    row and leaves the same store. *)
Theorem update_user_me_partial (w : World) (full_name phone_number email : option string)
    (current_user : models.User) :
  exists user w',
    update_user_me full_name phone_number email current_user w = (Return user, w') /\
    models.full_name user =
      match full_name with Some n => n | None => models.full_name current_user end /\
    models.phone_number user =
      match phone_number with Some p => Some p | None => models.phone_number current_user end /\
    models.email user =
      match email with Some e => e | None => models.email current_user end /\
    models.id user = models.id current_user /\
    models.user_id user = models.user_id current_user /\
    models.password user = models.password current_user /\
    models.is_active user = models.is_active current_user /\
    models.created_at user = models.created_at current_user /\
    models.updated_at user = models.updated_at current_user /\
    models.user_role user = models.user_role current_user /\
    users (db w') =
      List.map (fun u => if String.eqb (models.user_id u) (models.user_id current_user)
                         then user else u) (users (db w)) /\
    user_roles (db w') = user_roles (db w) /\
    items (db w') = items (db w) /\
    exists w'',
      update_user_me full_name phone_number email user w' = (Return user, w'') /\
      db w'' = db w'.
Proof.
  eexists. eexists. split; [run_handler; reflexivity|].
  destruct current_user as [i uid em [ph|] fn pw act ca ua ur];
  destruct full_name as [n|], phone_number as [p|], email as [e|];
    unfold crud.user.merge, crud.user.store_row, UserUpdate_of; cbn;
    repeat (split; [reflexivity|]);
    (eexists; split;
     [ run_handler; unfold crud.user.merge, crud.user.store_row, UserUpdate_of;
       cbn; reflexivity
     | cbn; f_equal; apply replace_row_twice; reflexivity ]).
Qed.

(** C10.  The profile returned for the current user has the role [None]
    when the user has no role assignment and the name of the assigned role
    otherwise; its [id], [email], [is_active], [full_name], [created_at]
    and [updated_at] are those of the current user; nothing is stored or
    called. *)
Theorem read_user_me_profile (w : World) (current_user : models.User) :
  exists user_data,
    read_user_me current_user w = (Return user_data, w) /\
    (models.user_role current_user = None -> schemas.role user_data = None) /\
    (forall user_role, models.user_role current_user = Some user_role ->
       schemas.role user_data = Some (models.name (models.role user_role))) /\
    schemas.id user_data = models.id current_user /\
    schemas.email user_data = models.email current_user /\
    schemas.is_active user_data = models.is_active current_user /\
    schemas.full_name user_data = models.full_name current_user /\
    schemas.created_at user_data = models.created_at current_user /\
    schemas.updated_at user_data = models.updated_at current_user.
Proof.
  eexists. split; [reflexivity|]. cbn.
  split; [intros ->; reflexivity|].
  split; [intros user_role ->; reflexivity|].
  repeat split.
Qed.

(** C10, on the two sample users: [asha] holds the role "PATIENT", [bela]
    holds none. *)
Lemma read_user_me_profile_witness :
  (exists user_data,
     read_user_me asha sample_world = (Return user_data, sample_world) /\
     schemas.role user_data = Some "PATIENT" /\
     schemas.id user_data = "u-1") /\
  (exists user_data,
     read_user_me bela sample_world = (Return user_data, sample_world) /\
     schemas.role user_data = None /\
     schemas.id user_data = "u-2").
Proof.
  split.
  - destruct (read_user_me_profile sample_world asha)
      as (user_data & Hrun & _ & Hrole & Hid & _).
    exists user_data. split; [exact Hrun|]. split; [|exact Hid].
    exact (Hrole asha_role eq_refl).
  - destruct (read_user_me_profile sample_world bela)
      as (user_data & Hrun & Hnone & _ & Hid & _).
    exists user_data. split; [exact Hrun|]. split; [|exact Hid].
    exact (Hnone eq_refl).
Defined.

(** The [total] of a page is the length of the page, not the number of
    matching items: three sample items have status 1, the first page of
    size 2 reports 2. *)
Example get_items_total_counts_the_page :
  length (List.filter (fun i => Z.eqb (models.status i) 1) (items sample_store)) = 3%nat /\
  exists r w', get_items 1 1 2 sample_world = (Return r, w') /\ schemas.total r = 2.
Proof.
  split; [reflexivity|]. eexists. eexists. split; reflexivity.
Qed.

(** ** Further properties of the login *)

(** X1.  A login answers with status 200 only when the lookup resolved a
    user, the presented secret verified against that user's stored hashed
    secret, and the role assignment of that user carries the claimed role;
    the identifier in the response is that user's. *)
Theorem login_success_is_authenticated {E : Externals} (w : World)
    (user_dtl : schemas.UserLogin) (resp : JSONResponse) :
  fst (user_login user_dtl w) = Return resp ->
  status_code resp = 200 ->
  exists U a,
    crud.user.first_by_email_or_phone (db w)
      (schemas.email_or_phone_no user_dtl) (schemas.email_or_phone_no user_dtl) = Some U /\
    pwd_verify (schemas.login_password user_dtl) (models.password U) = true /\
    crud.user_role.first_by_user_id (db w) (models.user_id U) = Some a /\
    models.role_id a = schemas.login_user_role user_dtl /\
    content resp = [("message", JStr "Login successful");
                    ("status", JInt 200);
                    ("user_id", JStr (models.user_id U))].
Proof.
  intros Hrun Hok.
  destruct (user_login_cases w user_dtl)
    as [[_ Hr] | (U & HU & [[_ Hr] | (Hv & [[_ Hr] | (a & Ha & [[_ Hr] | [Hrole Hr]])])])];
    rewrite Hr in Hrun; try discriminate; injection Hrun as <-;
    try (cbn in Hok; discriminate).
  exists U, a. repeat split; assumption.
Qed.

(** X1, at the login of [asha] by email. *)
Lemma login_success_is_authenticated_witness :
  exists U a,
    crud.user.first_by_email_or_phone sample_store "asha@example.org" "asha@example.org"
      = Some U /\
    @pwd_verify sample_externals "s3cret" (models.password U) = true /\
    crud.user_role.first_by_user_id sample_store (models.user_id U) = Some a /\
    models.role_id a = "r-2" /\
    [("message", JStr "Login successful"); ("status", JInt 200); ("user_id", JStr "u-1")]
      = [("message", JStr "Login successful");
         ("status", JInt 200);
         ("user_id", JStr (models.user_id U))].
Proof.
  apply (@login_success_is_authenticated sample_externals sample_world
           (login_as "asha@example.org" "s3cret" "r-2")
           {| content := [("message", JStr "Login successful");
                          ("status", JInt 200); ("user_id", JStr "u-1")];
              status_code := 200 |}); reflexivity.
Defined.

(** X2.  Whatever its outcome, a response or the escaping exception, the
    login leaves the tables, the identifier generator and the clock as they
    were; it only adds events, starting with its log line and one lookup
    that passes the identifier both as email and as phone number. *)
Theorem login_leaves_store_untouched {E : Externals} (w : World)
    (user_dtl : schemas.UserLogin) :
  exists es,
    snd (user_login user_dtl w) =
      logged w (login_prelude (schemas.email_or_phone_no user_dtl) ++ es) /\
    db (snd (user_login user_dtl w)) = db w.
Proof.
  destruct (crud.user.first_by_email_or_phone (db w)
              (schemas.email_or_phone_no user_dtl) (schemas.email_or_phone_no user_dtl))
    as [U|] eqn:Hu.
  2:{ exists []. rewrite (user_login_not_found w user_dtl Hu).
      rewrite app_nil_r. split; reflexivity. }
  destruct (pwd_verify (schemas.login_password user_dtl) (models.password U)) eqn:Hv.
  2:{ eexists. rewrite (user_login_bad_secret w user_dtl U Hu Hv). split; reflexivity. }
  destruct (crud.user_role.first_by_user_id (db w) (models.user_id U)) as [a|] eqn:Ha.
  2:{ eexists. rewrite (user_login_no_assignment w user_dtl U Hu Hv Ha).
      split; reflexivity. }
  destruct (String.eqb_spec (models.role_id a) (schemas.login_user_role user_dtl))
    as [Heq|Hne].
  - eexists. rewrite (user_login_passes w user_dtl U a Hu Hv Ha Heq). split; reflexivity.
  - eexists. rewrite (user_login_role_mismatch w user_dtl U a Hu Hv Ha Hne).
    split; reflexivity.
Qed.



(** ** Further properties of user creation *)

Lemma NoDup_snoc {A} (l : list A) (x : A) :
  NoDup l -> ~ In x l -> NoDup (l ++ [x]).
Proof.
  induction 1 as [|a l Ha Hl IH]; cbn; intros Hx.
  - constructor; [tauto | constructor].
  - constructor.
    + rewrite in_app_iff. cbn. intros [H | [H | []]]; [tauto | subst; tauto].
    + apply IH. tauto.
Qed.

(** The create handler when the email is taken. *)
Lemma create_user_taken {E : Externals} (w : World) (user_in : schemas.UserCreate)
    (u : models.User) :
  crud.user.first_by_email (db w) (schemas.email_id user_in) = Some u ->
  create_user user_in w =
    (Return (failure_response 409
               "The user with this user email already exists in the system."),
     logged w [get_by_email_called (schemas.email_id user_in)]).
Proof.
  intros Hu. run_handler. rewrite Hu. cbn. now tidy_events.
Qed.

(** The create handler when the email is free. *)
Lemma create_user_fresh {E : Externals} (w : World) (user_in : schemas.UserCreate) :
  crud.user.first_by_email (db w) (schemas.email_id user_in) = None ->
  create_user user_in w =
    (Return {| content := [("message", JStr "User created successfully");
                           ("status", JInt 200)];
               status_code := 200 |},
     {| db := {| users := users (db w) ++
                          [crud.user.new_row (uuid4 (uuid_draws w)) (clock w) user_in];
                 user_roles := user_roles (db w);
                 items := items (db w) |};
        events := events w ++ [get_by_email_called (schemas.email_id user_in);
                               user_create_called (schemas.email_id user_in)];
        uuid_draws := S (uuid_draws w);
        clock := clock w |}).
Proof.
  intros Hu. run_handler. rewrite Hu. cbn. now tidy_events.
Qed.

(** After the create handler ran, in either way, the email is taken. *)
Lemma create_user_email_taken_after {E : Externals} (w : World)
    (user_in : schemas.UserCreate) :
  exists u,
    crud.user.first_by_email (db (snd (create_user user_in w))) (schemas.email_id user_in)
      = Some u /\
    models.email u = schemas.email_id user_in.
Proof.
  destruct (crud.user.first_by_email (db w) (schemas.email_id user_in)) as [u|] eqn:Hu.
  - exists u. rewrite (create_user_taken w user_in u Hu). cbn. split; [exact Hu|].
    apply find_some in Hu as [_ Hu]. now apply String.eqb_eq.
  - eexists. rewrite (create_user_fresh w user_in Hu). cbn.
    unfold crud.user.first_by_email in *. cbn.
    rewrite (find_app_absent _ _ _ Hu). cbn. rewrite String.eqb_refl.
    split; reflexivity.
Qed.

(** X4.  The create handler keeps the emails of the table pairwise
    different: if no two stored users share an email before the call, none
    do after it, whether it created a row or answered with the conflict. *)
Theorem create_user_keeps_emails_distinct {E : Externals} (w : World)
    (user_in : schemas.UserCreate) :
  NoDup (List.map models.email (users (db w))) ->
  NoDup (List.map models.email (users (db (snd (create_user user_in w))))).
Proof.
  intros Hdistinct.
  destruct (crud.user.first_by_email (db w) (schemas.email_id user_in)) as [u|] eqn:Hu.
  - now rewrite (create_user_taken w user_in u Hu).
  - rewrite (create_user_fresh w user_in Hu). cbn.
    rewrite map_app. cbn. apply NoDup_snoc; [assumption|].
    intros Hin. apply in_map_iff in Hin as (v & Hemail & Hv).
    pose proof (find_none _ _ Hu v Hv) as Hne. cbn in Hne.
    apply String.eqb_neq in Hne. congruence.
Qed.

(** X4, on the sample store and a new email. *)
Lemma create_user_keeps_emails_distinct_witness :
  NoDup (List.map models.email
           (users (db (snd (@create_user sample_externals
                              {| schemas.email_id := "chen@example.org";
                                 schemas.create_password := "pw";
                                 schemas.create_full_name := "Chen Li";
                                 schemas.create_phone_number := None |}
                              sample_world))))).
Proof.
  apply (@create_user_keeps_emails_distinct sample_externals sample_world).
  cbn. repeat (apply NoDup_cons; [cbn; intuition discriminate|]). apply NoDup_nil.
Defined.



(** X6.  After the create handler ran for an email, a login with that email
    as identifier is never answered with "User does not exist, please sign
    up.": the lookup finds a row. *)
Theorem login_after_create_user_finds_user {E : Externals} (w : World)
    (user_in : schemas.UserCreate) (user_dtl : schemas.UserLogin) :
  schemas.email_or_phone_no user_dtl = schemas.email_id user_in ->
  (exists U,
     crud.user.first_by_email_or_phone (db (snd (create_user user_in w)))
       (schemas.email_or_phone_no user_dtl) (schemas.email_or_phone_no user_dtl) = Some U) /\
  fst (user_login user_dtl (snd (create_user user_in w))) <>
    Return (failure_response 409 "User does not exist, please sign up.").
Proof.
  intros Hident.
  destruct (create_user_email_taken_after w user_in) as (u & Hu & Hemail).
  apply find_some in Hu as [Hin _].
  destruct (find_present
              (crud.user.email_or_phone_is (schemas.email_or_phone_no user_dtl)
                 (schemas.email_or_phone_no user_dtl))
              (users (db (snd (create_user user_in w)))) u Hin) as [U HU].
  { unfold crud.user.email_or_phone_is. rewrite Hident, Hemail, String.eqb_refl.
    reflexivity. }
  split; [now exists U|].
  destruct (user_login_cases (snd (create_user user_in w)) user_dtl)
    as [[Hnone _] | (U' & _ & [[_ Hr] | (_ & [[_ Hr] | (a & _ & [[_ Hr] | [_ Hr]])])])];
    [unfold crud.user.first_by_email_or_phone in Hnone; congruence | ..];
    rewrite Hr; discriminate.
Qed.

(** X6, creating "chen@example.org" and logging in with it. *)
Lemma login_after_create_user_finds_user_witness :
  fst (@user_login sample_externals (login_as "chen@example.org" "pw" "r-2")
         (snd (@create_user sample_externals
                 {| schemas.email_id := "chen@example.org"; schemas.create_password := "pw";
                    schemas.create_full_name := "Chen Li";
                    schemas.create_phone_number := None |}
                 sample_world))) <>
    Return (failure_response 409 "User does not exist, please sign up.").
Proof.
  apply (@login_after_create_user_finds_user sample_externals sample_world
           {| schemas.email_id := "chen@example.org"; schemas.create_password := "pw";
              schemas.create_full_name := "Chen Li";
              schemas.create_phone_number := None |}
           (login_as "chen@example.org" "pw" "r-2")).
  reflexivity.
Defined.

(** ** Open registration, read by identifier, update by identifier *)

(** X7.  The open registration creates nothing when it refuses.  With the
    registration closed it raises the 403 before any lookup and the world
    is left as it was; with the registration open and the email taken it
    raises the 409 after the lookup and the store is left as it was.  The
    handler has no [try], so in both cases the exception leaves it: no
    response value is returned, unlike the create handler, which answers
    the same conflict with a 409 response. *)
Theorem create_user_open_refusals {E : Externals} (w : World)
    (UserCreate_of_body : string -> string -> string -> option string
                          -> M schemas.UserCreate)
    (password email full_name : string) (phone_number : option string) :
  create_user_open false UserCreate_of_body password email full_name phone_number w =
    (Raise (HTTPException 403 "Open user registration is forbidden on this server"), w) /\
  ((exists u, In u (users (db w)) /\ models.email u = email) ->
   create_user_open true UserCreate_of_body password email full_name phone_number w =
     (Raise (HTTPException 409 "The user with this username already exists in the system"),
      logged w [get_by_email_called email]) /\
   exists resp,
     fst (create_user {| schemas.email_id := email;
                         schemas.create_password := password;
                         schemas.create_full_name := full_name;
                         schemas.create_phone_number := phone_number |} w)
       = Return resp /\
     status_code resp = 409).
Proof.
  split; [reflexivity|].
  intros (u & Hu & Hemail).
  destruct (find_present (fun v => String.eqb (models.email v) email)
              (users (db w)) u Hu) as [y Hy]; [now apply String.eqb_eq|].
  split.
  - run_more. cbn. unfold crud.user.first_by_email. rewrite Hy. cbn. now tidy_events.
  - eexists. split.
    + now rewrite (create_user_taken w
                     {| schemas.email_id := email;
                        schemas.create_password := password;
                        schemas.create_full_name := full_name;
                        schemas.create_phone_number := phone_number |} y Hy).
    + reflexivity.
Qed.

(** X7, with the email of [asha]. *)
Lemma create_user_open_refusals_witness :
  @create_user_open sample_externals true
    (fun password _ full_name phone_number =>
       ret {| schemas.email_id := ""; schemas.create_password := password;
              schemas.create_full_name := full_name;
              schemas.create_phone_number := phone_number |})
    "pw" "asha@example.org" "Another Asha" None sample_world =
    (Raise (HTTPException 409 "The user with this username already exists in the system"),
     logged sample_world [get_by_email_called "asha@example.org"]).
Proof.
  apply (proj2 (@create_user_open_refusals sample_externals sample_world
                  (fun password _ full_name phone_number =>
                     ret {| schemas.email_id := "";
                            schemas.create_password := password;
                            schemas.create_full_name := full_name;
                            schemas.create_phone_number := phone_number |})
                  "pw" "asha@example.org" "Another Asha" None)).
  exists asha. split; [cbn; tauto | reflexivity].
Defined.





(** X10.  Updating a stored user by identifier, when no other row has the
    identifier: the handler answers with the 200 success; in the table the
    row of that user holds the given fields where the changeset gives one
    and the prior values elsewhere (identifiers, secret, flags, timestamps
    and role included), every other row is the one it was, at the place it
    was; the other tables are left as they were. *)
Theorem update_user_known_updates_row (w : World) (user_in : schemas.UserUpdate)
    (U : models.User) :
  In U (users (db w)) ->
  models.user_id U = schemas.upd_user_id user_in ->
  (forall V, In V (users (db w)) ->
     models.user_id V = schemas.upd_user_id user_in -> V = U) ->
  exists w',
    update_user user_in w =
      (Return {| content := [("message", JStr "Updated user details successfully");
                             ("status", JInt 200)];
                 status_code := 200 |}, w') /\
    users (db w') =
      List.map (fun V => if String.eqb (models.user_id V) (schemas.upd_user_id user_in)
                         then crud.user.merge U user_in else V) (users (db w)) /\
    user_roles (db w') = user_roles (db w) /\
    items (db w') = items (db w) /\
    models.full_name (crud.user.merge U user_in) =
      match schemas.upd_full_name user_in with Some n => n | None => models.full_name U end /\
    models.phone_number (crud.user.merge U user_in) =
      match schemas.upd_phone_number user_in with
      | Some p => Some p
      | None => models.phone_number U
      end /\
    models.email (crud.user.merge U user_in) =
      match schemas.upd_email user_in with Some e => e | None => models.email U end /\
    models.id (crud.user.merge U user_in) = models.id U /\
    models.user_id (crud.user.merge U user_in) = models.user_id U /\
    models.password (crud.user.merge U user_in) = models.password U /\
    models.is_active (crud.user.merge U user_in) = models.is_active U /\
    models.created_at (crud.user.merge U user_in) = models.created_at U /\
    models.updated_at (crud.user.merge U user_in) = models.updated_at U /\
    models.user_role (crud.user.merge U user_in) = models.user_role U.
Proof.
  intros HU Hkey Honly.
  assert (Hfind : crud.user.first_by_user_id (db w) (schemas.upd_user_id user_in) = Some U).
  { apply find_unique; [assumption | now apply String.eqb_eq |].
    intros V HV HVk. apply Honly; [assumption | now apply String.eqb_eq]. }
  eexists. split.
  { run_more. rewrite Hfind. cbn. reflexivity. }
  cbn. unfold crud.user.store_row. rewrite Hkey. repeat split.
Qed.

(** X10, renaming [bela] in the sample store. *)
Lemma update_user_known_updates_row_witness :
  exists w',
    update_user {| schemas.upd_user_id := "u-2"; schemas.upd_full_name := Some "Bela K.";
                   schemas.upd_phone_number := None; schemas.upd_email := None |}
      sample_world =
      (Return {| content := [("message", JStr "Updated user details successfully");
                             ("status", JInt 200)];
                 status_code := 200 |}, w') /\
    users (db w') =
      [asha;
       {| models.id := "u-2"; models.user_id := "u-2";
          models.email := "bela@example.org"; models.phone_number := None;
          models.full_name := "Bela K."; models.password := "hashed:pa55";
          models.is_active := true; models.created_at := 1700000100;
          models.updated_at := 1700000100; models.user_role := None |}].
Proof.
  destruct (update_user_known_updates_row sample_world
              {| schemas.upd_user_id := "u-2"; schemas.upd_full_name := Some "Bela K.";
                 schemas.upd_phone_number := None; schemas.upd_email := None |} bela)
    as (w' & Hrun & Husers & _).
  - cbn. tauto.
  - reflexivity.
  - intros V [<- | [<- | []]]; [discriminate | reflexivity].
  - exists w'. split; [exact Hrun|]. rewrite Husers. reflexivity.
Defined.

(** ** Invariants of the updates *)

Lemma user_ids_of_store_row (db_obj row : models.User) (table : list models.User) :
  models.user_id row = models.user_id db_obj ->
  List.map models.user_id (crud.user.store_row db_obj row table) =
  List.map models.user_id table.
Proof.
  intros Hkey. unfold crud.user.store_row. rewrite map_map. apply map_ext.
  intros u. destruct (String.eqb_spec (models.user_id u) (models.user_id db_obj));
    congruence.
Qed.

(** X11.  Neither update handler adds, removes, reorders or re-keys a row:
    after [update_user_me] and after [update_user], on any input and with
    any outcome, the table holds the same user identifiers at the same
    places, and so as many rows as before. *)
Theorem updates_keep_user_ids (w : World) :
  (forall full_name phone_number email current_user,
     List.map models.user_id
       (users (db (snd (update_user_me full_name phone_number email current_user w)))) =
     List.map models.user_id (users (db w))) /\
  (forall user_in,
     List.map models.user_id (users (db (snd (update_user user_in w)))) =
     List.map models.user_id (users (db w))).
Proof.
  split.
  - intros full_name phone_number email current_user.
    run_handler. cbn. now apply user_ids_of_store_row.
  - intros user_in. run_more.
    destruct (crud.user.first_by_user_id (db w) (schemas.upd_user_id user_in)) as [U|];
      cbn; [now apply user_ids_of_store_row | reflexivity].
Qed.

(** X12.  An update of the current user that provides no field changes
    nothing: when the rows stored under the current user's identifier are
    the current user, the handler returns the current user and leaves
    every table as it was. *)
Theorem update_user_me_nothing_provided (w : World) (current_user : models.User) :
  (forall V, In V (users (db w)) ->
     models.user_id V = models.user_id current_user -> V = current_user) ->
  fst (update_user_me None None None current_user w) = Return current_user /\
  db (snd (update_user_me None None None current_user w)) = db w.
Proof.
  intros Hsame.
  assert (Hmerge : crud.user.merge current_user (UserUpdate_of current_user) = current_user)
    by (destruct current_user as [i uid em [ph|] fn pw act ca ua ur]; reflexivity).
  run_handler. cbn. rewrite Hmerge. split; [reflexivity|].
  unfold crud.user.store_row.
  rewrite (map_ext_in _ (fun u => u)), map_id; [now destruct (db w)|].
  intros u Hu.
  destruct (String.eqb_spec (models.user_id u) (models.user_id current_user)) as [Heq|];
    [symmetry; now apply Hsame | reflexivity].
Qed.

(** X12, for [bela] in the sample store. *)
Lemma update_user_me_nothing_provided_witness :
  fst (update_user_me None None None bela sample_world) = Return bela /\
  db (snd (update_user_me None None None bela sample_world)) = sample_store.
Proof.
  apply (update_user_me_nothing_provided sample_world bela).
  intros V [<- | [<- | []]]; [discriminate | reflexivity].
Defined.

(** ** Further properties of the paginated listing *)

Lemma firstn_then_next {A} (n m : nat) (l : list A) :
  List.firstn n l ++ List.firstn m (List.skipn n l) = List.firstn (n + m) l.
Proof.
  revert l. induction n as [|n IH]; intros [|a l]; cbn; try reflexivity.
  - now rewrite firstn_nil.
  - now rewrite IH.
Qed.

(** X13.  For [page >= 1] and [limit >= 1], with [count] the number of
    items that have the given status, the [total] of the page is
    [min limit (max 0 (count - (page - 1) * limit))]: [limit] on a full
    page, the remainder on the last page, and 0 with an empty item list,
    not an error, on every page past the end. *)
Theorem get_items_total_formula (w : World) (status page limit : Z) :
  1 <= page -> 1 <= limit ->
  exists r,
    fst (get_items status page limit w) = Return r /\
    schemas.total r =
      Z.min limit
        (Z.max 0
           (Z.of_nat (length (List.filter (fun i => Z.eqb (models.status i) status)
                                (items (db w))))
            - (page - 1) * limit)) /\
    (Z.of_nat (length (List.filter (fun i => Z.eqb (models.status i) status)
                         (items (db w))))
       <= (page - 1) * limit ->
     schemas.items r = [] /\ schemas.total r = 0).
Proof.
  intros Hpage Hlimit.
  assert (Hskip : 0 <= (page - 1) * limit) by nia.
  eexists. split; [run_handler; reflexivity|]. cbn.
  unfold crud.user.window.
  set (matching := List.filter (fun i => Z.eqb (models.status i) status) (items (db w))).
  set (skip := (page - 1) * limit) in *.
  assert (Hlen : length (List.firstn (Z.to_nat limit) (List.skipn (Z.to_nat skip) matching))
                 = Nat.min (Z.to_nat limit) (length matching - Z.to_nat skip))
    by now rewrite length_firstn, length_skipn.
  split; [rewrite Hlen; lia|].
  intros Hpast.
  assert (Hzero : length (List.firstn (Z.to_nat limit)
                            (List.skipn (Z.to_nat skip) matching)) = 0%nat)
    by (rewrite Hlen; lia).
  rewrite Hzero. split; [|reflexivity].
  now apply length_zero_iff_nil.
Qed.

(** X13, on the sample items with status 1 (three of them), page size 2:
    the second page holds one item, the third none. *)
Lemma get_items_total_formula_witness :
  (exists r, fst (get_items 1 2 2 sample_world) = Return r /\ schemas.total r = 1) /\
  (exists r, fst (get_items 1 3 2 sample_world) = Return r /\
             schemas.items r = [] /\ schemas.total r = 0).
Proof.
  split.
  - destruct (get_items_total_formula sample_world 1 2 2) as (r & Hrun & Htotal & _);
      [lia | lia |].
    exists r. split; [exact Hrun|]. rewrite Htotal. reflexivity.
  - destruct (get_items_total_formula sample_world 1 3 2) as (r & Hrun & _ & Hpast);
      [lia | lia |].
    exists r. split; [exact Hrun|]. apply Hpast. vm_compute. discriminate.
Defined.

(** X14.  Consecutive pages tile the matching items: for [page >= 1] and
    [limit >= 1], the items of page [page] followed by the items of page
    [page + 1], fetched next, are the [2 * limit] matching items that start
    at the first page's offset, with no item repeated or left out between
    the two; the second offset is the first plus [limit]. *)
Theorem get_items_pages_tile (w : World) (status page limit : Z) :
  1 <= page -> 1 <= limit ->
  exists r1 r2,
    fst (get_items status page limit w) = Return r1 /\
    fst (get_items status (page + 1) limit (snd (get_items status page limit w)))
      = Return r2 /\
    schemas.skip r2 = schemas.skip r1 + limit /\
    schemas.items r1 ++ schemas.items r2 =
      List.firstn (Z.to_nat (2 * limit))
        (List.skipn (Z.to_nat ((page - 1) * limit))
           (List.filter (fun i => Z.eqb (models.status i) status) (items (db w)))).
Proof.
  intros Hpage Hlimit.
  assert (Hskip : 0 <= (page - 1) * limit) by nia.
  replace (2 * limit) with (limit + limit) by ring.
  eexists. eexists. split; [run_handler; reflexivity|].
  split; [run_handler; reflexivity|]. cbn.
  split; [ring|].
  unfold crud.user.window.
  set (matching := List.filter (fun i => Z.eqb (models.status i) status) (items (db w))).
  replace ((page + 1 - 1) * limit) with ((page - 1) * limit + limit) by ring.
  rewrite Z2Nat.inj_add by lia.
  rewrite (Nat.add_comm (Z.to_nat ((page - 1) * limit))), <- skipn_skipn.
  rewrite firstn_then_next. f_equal. lia.
Qed.

(** X14, on the sample items with status 1: pages 1 and 2 of size 1. *)
Lemma get_items_pages_tile_witness :
  exists r1 r2,
    fst (get_items 1 1 1 sample_world) = Return r1 /\
    fst (get_items 1 2 1 (snd (get_items 1 1 1 sample_world))) = Return r2 /\
    schemas.items r1 ++ schemas.items r2 =
      [ {| models.item_name := "a"; models.status := 1 |};
        {| models.item_name := "c"; models.status := 1 |} ].
Proof.
  destruct (get_items_pages_tile sample_world 1 1 1) as (r1 & r2 & H1 & H2 & _ & Htile);
    [lia | lia |].
  exists r1, r2. split; [exact H1|]. split; [exact H2|]. rewrite Htile. reflexivity.
Defined.

(** ** How the handlers compose *)

Lemma find_app_miss {A} (p : A -> bool) (l : list A) (x : A) :
  p x = false -> List.find p (l ++ [x]) = List.find p l.
Proof.
  intros Hx. induction l as [|a l IH]; cbn; [now rewrite Hx|].
  destruct (p a); [reflexivity | exact IH].
Qed.

(** The answer of a login is decided by what the two lookups return. *)
Lemma user_login_same_lookups {E : Externals} (w1 w2 : World)
    (user_dtl : schemas.UserLogin) :
  crud.user.first_by_email_or_phone (db w2)
    (schemas.email_or_phone_no user_dtl) (schemas.email_or_phone_no user_dtl) =
  crud.user.first_by_email_or_phone (db w1)
    (schemas.email_or_phone_no user_dtl) (schemas.email_or_phone_no user_dtl) ->
  (forall uid, crud.user_role.first_by_user_id (db w2) uid =
               crud.user_role.first_by_user_id (db w1) uid) ->
  fst (user_login user_dtl w2) = fst (user_login user_dtl w1).
Proof.
  intros Hsame Hroles.
  destruct (crud.user.first_by_email_or_phone (db w1)
              (schemas.email_or_phone_no user_dtl) (schemas.email_or_phone_no user_dtl))
    as [U|] eqn:Hu.
  2:{ now rewrite (user_login_not_found w1 user_dtl Hu),
                  (user_login_not_found w2 user_dtl Hsame). }
  destruct (pwd_verify (schemas.login_password user_dtl) (models.password U)) eqn:Hv.
  2:{ now rewrite (user_login_bad_secret w1 user_dtl U Hu Hv),
                  (user_login_bad_secret w2 user_dtl U Hsame Hv). }
  pose proof (Hroles (models.user_id U)) as Hrole.
  destruct (crud.user_role.first_by_user_id (db w1) (models.user_id U)) as [a|] eqn:Ha.
  2:{ now rewrite (user_login_no_assignment w1 user_dtl U Hu Hv Ha),
                  (user_login_no_assignment w2 user_dtl U Hsame Hv Hrole). }
  destruct (String.eqb_spec (models.role_id a) (schemas.login_user_role user_dtl))
    as [Heq|Hne].
  - now rewrite (user_login_passes w1 user_dtl U a Hu Hv Ha Heq),
                (user_login_passes w2 user_dtl U a Hsame Hv Hrole Heq).
  - now rewrite (user_login_role_mismatch w1 user_dtl U a Hu Hv Ha Hne),
                (user_login_role_mismatch w2 user_dtl U a Hsame Hv Hrole Hne).
Qed.

(** X15.  Creating a user does not disturb the logins of other
    identifiers: a login whose identifier is neither the email nor the
    phone number given to the create handler gets the same answer, or the
    same exception, after the call as before it, whether a row was created
    or not. *)
Theorem create_user_keeps_other_logins {E : Externals} (w : World)
    (user_in : schemas.UserCreate) (user_dtl : schemas.UserLogin) :
  schemas.email_id user_in <> schemas.email_or_phone_no user_dtl ->
  schemas.create_phone_number user_in <> Some (schemas.email_or_phone_no user_dtl) ->
  fst (user_login user_dtl (snd (create_user user_in w))) = fst (user_login user_dtl w).
Proof.
  intros Hemail Hphone. apply user_login_same_lookups.
  - destruct (crud.user.first_by_email (db w) (schemas.email_id user_in)) as [u|] eqn:Hu.
    + now rewrite (create_user_taken w user_in u Hu).
    + rewrite (create_user_fresh w user_in Hu). cbn.
      unfold crud.user.first_by_email_or_phone. cbn.
      apply find_app_miss. unfold crud.user.email_or_phone_is. cbn.
      apply String.eqb_neq in Hemail. rewrite Hemail. cbn.
      destruct (schemas.create_phone_number user_in) as [p|]; [|reflexivity].
      apply String.eqb_neq. congruence.
  - intros uid.
    destruct (crud.user.first_by_email (db w) (schemas.email_id user_in)) as [u|] eqn:Hu.
    + now rewrite (create_user_taken w user_in u Hu).
    + now rewrite (create_user_fresh w user_in Hu).
Qed.

(** X15, for the login of [asha] by phone around the creation of
    "chen@example.org", who gives another phone number. *)
Lemma create_user_keeps_other_logins_witness :
  fst (@user_login sample_externals (login_as "5550001" "s3cret" "r-2")
         (snd (@create_user sample_externals
                 {| schemas.email_id := "chen@example.org"; schemas.create_password := "pw";
                    schemas.create_full_name := "Chen Li";
                    schemas.create_phone_number := Some "5550002" |}
                 sample_world))) =
  fst (@user_login sample_externals (login_as "5550001" "s3cret" "r-2") sample_world).
Proof.
  apply (@create_user_keeps_other_logins sample_externals sample_world
           {| schemas.email_id := "chen@example.org"; schemas.create_password := "pw";
              schemas.create_full_name := "Chen Li";
              schemas.create_phone_number := Some "5550002" |}
           (login_as "5550001" "s3cret" "r-2")); discriminate.
Defined.

(** X16.  Update then read: the profile read for the row that
    [update_user_me] returned shows the full name and the email of the
    request where it gave one, and otherwise, as for the identifier, the
    active flag, the timestamps and the role, what the profile of the
    current user showed before the update. *)
Theorem read_user_me_after_update (w : World) (full_name phone_number email : option string)
    (current_user : models.User) :
  exists user w' before after,
    update_user_me full_name phone_number email current_user w = (Return user, w') /\
    fst (read_user_me current_user w) = Return before /\
    fst (read_user_me user w') = Return after /\
    schemas.full_name after =
      match full_name with Some n => n | None => schemas.full_name before end /\
    schemas.email after =
      match email with Some e => e | None => schemas.email before end /\
    schemas.id after = schemas.id before /\
    schemas.is_active after = schemas.is_active before /\
    schemas.created_at after = schemas.created_at before /\
    schemas.updated_at after = schemas.updated_at before /\
    schemas.role after = schemas.role before.
Proof.
  eexists. eexists. eexists. eexists.
  split; [run_handler; reflexivity|].
  split; [reflexivity|]. split; [reflexivity|].
  destruct full_name, phone_number, email; cbn; repeat split.
Qed.

(** X17.  Update then read by identifier: after [update_user] updated the
    stored user [U], the only row with its [user_id] and the only row with
    its [id], reading the user by that [id] returns the merged row. *)
Theorem read_user_by_id_after_update_user (w : World) (user_in : schemas.UserUpdate)
    (U : models.User) :
  In U (users (db w)) ->
  models.user_id U = schemas.upd_user_id user_in ->
  (forall V, In V (users (db w)) ->
     models.user_id V = schemas.upd_user_id user_in -> V = U) ->
  (forall V, In V (users (db w)) -> models.id V = models.id U -> V = U) ->
  fst (read_user_by_id (models.id U) (snd (update_user user_in w))) =
    Return (inl (crud.user.merge U user_in)).
Proof.
  intros HU Hkey Honly Hid.
  assert (Hfind : crud.user.first_by_user_id (db w) (schemas.upd_user_id user_in) = Some U).
  { apply find_unique; [assumption | now apply String.eqb_eq |].
    intros V HV HVk. apply Honly; [assumption | now apply String.eqb_eq]. }
  assert (Hrun : users (db (snd (update_user user_in w))) =
                 List.map (fun V => if String.eqb (models.user_id V) (models.user_id U)
                                    then crud.user.merge U user_in else V) (users (db w))).
  { run_more. rewrite Hfind. reflexivity. }
  assert (Hread : crud.user.first_by_id (db (snd (update_user user_in w))) (models.id U)
                  = Some (crud.user.merge U user_in)).
  { unfold crud.user.first_by_id. rewrite Hrun. apply find_unique.
    - apply in_map_iff. exists U. split; [|assumption]. now rewrite String.eqb_refl.
    - cbn. apply String.eqb_refl.
    - intros V' HV' HV'id. apply in_map_iff in HV' as (V & <- & HV).
      destruct (String.eqb_spec (models.user_id V) (models.user_id U)) as [_|Hne];
        [reflexivity|].
      apply String.eqb_eq in HV'id. apply Hid in HV'id; [|assumption]. congruence. }
  unfold read_user_by_id, crud.user.get. run_handler. now rewrite Hread.
Qed.

(** X17, renaming [bela] in the sample store and reading "u-2". *)
Lemma read_user_by_id_after_update_user_witness :
  fst (read_user_by_id "u-2"
         (snd (update_user {| schemas.upd_user_id := "u-2";
                              schemas.upd_full_name := Some "Bela K.";
                              schemas.upd_phone_number := None;
                              schemas.upd_email := None |} sample_world))) =
    Return (inl {| models.id := "u-2"; models.user_id := "u-2";
                   models.email := "bela@example.org"; models.phone_number := None;
                   models.full_name := "Bela K."; models.password := "hashed:pa55";
                   models.is_active := true; models.created_at := 1700000100;
                   models.updated_at := 1700000100; models.user_role := None |}).
Proof.
  apply (read_user_by_id_after_update_user sample_world
           {| schemas.upd_user_id := "u-2"; schemas.upd_full_name := Some "Bela K.";
              schemas.upd_phone_number := None; schemas.upd_email := None |} bela).
  - cbn. tauto.
  - reflexivity.
  - intros V [<- | [<- | []]]; [discriminate | reflexivity].
  - intros V [<- | [<- | []]]; [discriminate | reflexivity].
Defined.
